(** * HTML-to-image conversion service: the POST /convert handler of server.js

    A shallow embedding of the request handler registered at
    [app.post('/convert', ...)] together with the JavaScript operations it
    relies on ([parseInt], [typeof], truthiness, object spread,
    [Array.prototype.includes]), and the properties of the conversion
    pipeline proved about it.

    The rendering engine (puppeteer) and the Express response object are
    external to server.js.  The engine is modelled by the answers it gives to
    the calls the handler makes, and the theorems hold for every such engine;
    the response object by the status, headers and body the handler hands to
    it.  Every engine call, every [console.error] and the response are
    recorded, in program order, in a log.

    Scope of the embedding: strings are byte strings (ASCII); numbers are
    the integers, NaN and the infinities; [req.body] is an object, as
    [express.json()] leaves it; headers that Express adds on its own are not
    part of a response. *)

From Stdlib Require Import ZArith NArith String Ascii List Bool Lia.
From stdpp Require Import base option strings gmap pretty.
Import ListNotations.

Local Open Scope string_scope.
Local Open Scope list_scope.

(** ** JavaScript values *)

Module JS.

(** Numbers.  [NInt z] is the number whose value is the integer [z]; the
    embedding keeps integers exact, which agrees with JavaScript on the safe
    integers (absolute value at most 2^53 - 1).  Numbers with a fractional
    part are not represented. *)
Inductive number : Type :=
| NInt (z : Z)
| NNaN
| NInf (negative : bool).

(** Values as they reach the handler in [req.body]: what JSON and
    urlencoded bodies can carry, and [undefined] for an absent property. *)
#[warnings="-register-all"]
Inductive value : Type :=
| VUndefined
| VNull
| VBool (b : bool)
| VNum (n : number)
| VStr (s : string)
| VArr (elems : list value)
| VObj (props : gmap string value).

(** Thrown errors: the two properties the handler reads. *)
Record error : Type := Error { name : string; message : string }.

Inductive outcome (A : Type) : Type :=
| Ok (a : A)
| Throw (e : error).
Arguments Ok {A} a.
Arguments Throw {A} e.

Definition MAX_SAFE_INTEGER : Z := 2 ^ 53 - 1.

Definition safe_integer (z : Z) : Prop := (Z.abs z <= MAX_SAFE_INTEGER)%Z.

(** [typeof v] *)
Definition typeof (v : value) : string :=
  match v with
  | VUndefined => "undefined"
  | VNull => "object"
  | VBool _ => "boolean"
  | VNum _ => "number"
  | VStr _ => "string"
  | VArr _ => "object"
  | VObj _ => "object"
  end.

(** ToBoolean: the truthiness used by [!html]. *)
Definition to_boolean (v : value) : bool :=
  match v with
  | VUndefined => false
  | VNull => false
  | VBool b => b
  | VNum (NInt z) => negb (z =? 0)%Z
  | VNum NNaN => false
  | VNum (NInf _) => true
  | VStr s => negb (bool_decide (s = ""))
  | VArr _ => true
  | VObj _ => true
  end.

(** Number::toString, radix 10, for the numbers represented: an integer
    prints as its decimal digits (as JavaScript does below 10^21). *)
Definition number_to_string (n : number) : string :=
  match n with
  | NInt z => pretty z
  | NNaN => "NaN"
  | NInf false => "Infinity"
  | NInf true => "-Infinity"
  end.

(** ToString.  [None] stands for the TypeError that ToPrimitive throws on an
    object whose own [toString] property shadows [Object.prototype.toString]
    with a value that is not callable (no value of a request body is).
    Arrays are joined with [","], [undefined] and [null] elements giving the
    empty string. *)
Fixpoint to_string (v : value) : option string :=
  match v with
  | VUndefined => Some "undefined"
  | VNull => Some "null"
  | VBool true => Some "true"
  | VBool false => Some "false"
  | VNum n => Some (number_to_string n)
  | VStr s => Some s
  | VArr elems =>
      (fix join (l : list value) : option string :=
         match l with
         | [] => Some ""
         | x :: rest =>
             let elem :=
               match x with
               | VUndefined | VNull => Some ""
               | _ => to_string x
               end in
             match rest with
             | [] => elem
             | _ :: _ =>
                 match elem, join rest with
                 | Some s, Some r => Some (s +:+ "," +:+ r)
                 | _, _ => None
                 end
             end
         end) elems
  | VObj props =>
      match props !! "toString" with
      | Some _ => None
      | None => Some "[object Object]"
      end
  end.

(** *** parseInt *)

(** StrWhiteSpaceChar, within ASCII: TAB, LF, VT, FF, CR, SP. *)
Definition is_whitespace (c : ascii) : bool :=
  let n := N_of_ascii c in
  ((9 <=? n) && (n <=? 13) || (n =? 32))%N.

Fixpoint trim_start (s : string) : string :=
  match s with
  | String c s' => if is_whitespace c then trim_start s' else s
  | EmptyString => s
  end.

(** The value of a character as a digit: 0-9, then a-z and A-Z for 10-35. *)
Definition digit_value (c : ascii) : option N :=
  let n := N_of_ascii c in
  if ((48 <=? n) && (n <=? 57))%N then Some (n - 48)%N
  else if ((97 <=? n) && (n <=? 122))%N then Some (n - 87)%N
  else if ((65 <=? n) && (n <=? 90))%N then Some (n - 55)%N
  else None.

Definition radix_digit (R : N) (c : ascii) : option N :=
  match digit_value c with
  | Some d => if (d <? R)%N then Some d else None
  | None => None
  end.

(** The mathematical integer denoted by the longest prefix of [s] made of
    radix-[R] digits; [None] when that prefix is empty. *)
Fixpoint parse_digits (R : N) (s : string) (acc : N) (seen : bool) : option N :=
  match s with
  | String c s' =>
      match radix_digit R c with
      | Some d => parse_digits R s' (acc * R + d)%N true
      | None => if seen then Some acc else None
      end
  | EmptyString => if seen then Some acc else None
  end.

(** Sign of the trimmed input and what follows it. *)
Definition split_sign (s : string) : bool * string :=
  match s with
  | String "-" s' => (true, s')
  | String "+" s' => (false, s')
  | _ => (false, s)
  end.

(** With no radix argument the radix is 10, or 16 after a [0x]/[0X] prefix. *)
Definition split_radix (s : string) : N * string :=
  match s with
  | String "0" (String "x" s') => (16%N, s')
  | String "0" (String "X" s') => (16%N, s')
  | _ => (10%N, s)
  end.

Definition parse_int_string (s : string) : number :=
  let '(negative, s1) := split_sign (trim_start s) in
  let '(R, s2) := split_radix s1 in
  match parse_digits R s2 0%N false with
  | None => NNaN
  | Some n => NInt (if negative then - Z.of_N n else Z.of_N n)
  end.

Definition to_primitive_error : error :=
  Error "TypeError" "Cannot convert object to primitive value".

(** [parseInt(v)] with one argument: ToString, then the string algorithm. *)
Definition parseInt (v : value) : outcome number :=
  match to_string v with
  | Some s => Ok (parse_int_string s)
  | None => Throw to_primitive_error
  end.

End JS.

Import JS.

(** [obj.key]: an absent property reads as [undefined]. *)
Definition get (obj : gmap string value) (key : string) : value :=
  default VUndefined (obj !! key).

(** The own enumerable properties that [{...v}] copies: the properties of an
    object, the indexed elements of an array, the indexed characters of a
    string, and nothing for the other values. *)
Definition indexed (l : list value) : gmap string value :=
  list_to_map (imap (λ i x, (pretty i, x)) l).

Definition own_properties (v : value) : gmap string value :=
  match v with
  | VObj props => props
  | VArr elems => indexed elems
  | VStr s => indexed ((λ c, VStr (String c "")) <$> list_ascii_of_string s)
  | _ => ∅
  end.

(** [l.includes(v)] for a list of string literals: SameValueZero holds only
    between equal strings. *)
Definition is_string (s : string) (v : value) : bool :=
  match v with
  | VStr t => bool_decide (t = s)
  | _ => false
  end.

Definition includes (l : list string) (v : value) : bool :=
  existsb (λ s, is_string s v) l.

(** The double quote character inside string literals. *)
Definition dq : string := String (ascii_of_nat 34) "".

(** ** The response object *)

Module Http.

Inductive payload : Type :=
| JsonBody (fields : list (string * value))
| BufferBody (bytes : list Byte.byte).

(** What the handler hands to Express: the status code, the headers it set
    through [res.set], and the body given to [res.json] or [res.send]. *)
Record response : Type := Response {
  status : Z;
  headers : list (string * value);
  body : payload
}.

Definition headers_sent_error : error :=
  Error "Error" "Cannot set headers after they are sent to the client".

End Http.

Import Http.

(** ** The rendering engine *)

Module Engine.

Record viewport : Type := Viewport { width : number; height : number }.

Record contentOptions : Type := ContentOptions {
  waitUntil : list string;
  timeout : Z
}.

(** The argument of [page.screenshot]; [quality = None] is an object without
    a [quality] property. *)
Record screenshotOptions : Type := ScreenshotOptions {
  type : value;
  fullPage : value;
  quality : option number
}.

(** A page is given by how it answers each call; the handler makes each call
    at most once on a page, so a function of the arguments is enough. *)
Record page : Type := Page {
  setViewport : viewport → outcome unit;
  setContent : value → contentOptions → outcome unit;
  waitForTimeout : Z → outcome unit;
  screenshot : screenshotOptions → outcome (list Byte.byte);
  close : outcome unit
}.

(** The object [puppeteer.launch] resolves to.  [connected] turns false when
    [browser.close()] is called; server.js never reads it. *)
Record browser_handle : Type := Browser {
  connected : bool;
  newPage : outcome page
}.

End Engine.

Import Engine.

(** ** Log and handler state *)

Inductive event : Type :=
| NewPage
| SetViewport (v : viewport)
| SetContent (html : value) (o : contentOptions)
| WaitForTimeout (ms : Z)
| Screenshot (o : screenshotOptions)
| PageClose
| ConsoleError (label : string) (e : error)
| Respond (r : response).

(** [statusCode] and [pending] are the fields of [res] the handler mutates;
    [sent] is the response written to the client, if any. *)
Record state : Type := State {
  log : list event;
  statusCode : Z;
  pending : list (string * value);
  sent : option response
}.

Definition initial : state := State [] 200 [] None.

(** Computations that read and extend the state and may throw. *)
Definition M (A : Type) : Type := state → outcome A * state.

#[global] Instance M_ret : MRet M := λ A a s, (Ok a, s).

#[global] Instance M_bind : MBind M := λ A B f m s,
  match m s with
  | (Ok a, s') => f a s'
  | (Throw e, s') => (Throw e, s')
  end.

Definition throw {A} (e : error) : M A := λ s, (Throw e, s).

Definition lift {A} (r : outcome A) : M A := λ s, (r, s).

Definition emit (ev : event) : M unit :=
  λ s, (Ok tt, State (log s ++ [ev]) (statusCode s) (pending s) (sent s)).

(** An awaited engine call: logged, then answered by the engine. *)
Definition call {A} (ev : event) (answer : outcome A) : M A :=
  emit ev ;; lift answer.

(** [try { body } catch (error) { handler }] *)
Definition try_catch {A} (body : M A) (handler : error → M A) : M A := λ s,
  match body s with
  | (Ok a, s') => (Ok a, s')
  | (Throw e, s') => handler e s'
  end.

(** [try { body } finally { cleanup }]: the cleanup always runs, and an error
    it throws replaces the completion of the body. *)
Definition try_finally {A} (body : M A) (cleanup : M unit) : M A := λ s,
  let '(r, s1) := body s in
  match cleanup s1 with
  | (Ok _, s2) => (r, s2)
  | (Throw e, s2) => (Throw e, s2)
  end.

(** [res.status(code)] *)
Definition res_status (code : Z) : M unit :=
  λ s, (Ok tt, State (log s) code (pending s) (sent s)).

(** [res.set(fields)]: refused once the response has been written. *)
Definition res_set (fields : list (string * value)) : M unit := λ s,
  match sent s with
  | Some _ => (Throw headers_sent_error, s)
  | None => (Ok tt, State (log s) (statusCode s) (pending s ++ fields) (sent s))
  end.

Definition write (b : payload) : M unit := λ s,
  match sent s with
  | Some _ => (Throw headers_sent_error, s)
  | None =>
      let r := Response (statusCode s) (pending s) b in
      (Ok tt, State (log s ++ [Respond r]) (statusCode s) (pending s) (Some r))
  end.

(** [res.json(obj)] and [res.send(buffer)] *)
Definition res_json (fields : list (string * value)) : M unit :=
  write (JsonBody fields).

Definition res_send (bytes : list Byte.byte) : M unit :=
  write (BufferBody bytes).

Definition console_error (label : string) (e : error) : M unit :=
  emit (ConsoleError label e).

(** ** server.js *)

Module Server.

(** [browser.newPage()] on the module-level [browser] variable, which is
    [undefined] until the launch has succeeded. *)
Definition undefined_newPage_error : error :=
  Error "TypeError" "Cannot read properties of undefined (reading 'newPage')".

Definition browser_newPage (browser : option browser_handle) : M page :=
  match browser with
  | None => throw undefined_newPage_error
  | Some handle => call NewPage (newPage handle)
  end.

Definition defaultOptions : gmap string value :=
  {[ "width" := VNum (NInt 1920);
     "height" := VNum (NInt 1080);
     "fullPage" := VBool true;
     "quality" := VNum (NInt 100);
     "type" := VStr "png" ]}.

(** [{ ...defaultOptions, ...options }]: later properties win. *)
Definition config (options : value) : gmap string value :=
  own_properties options ∪ defaultOptions.

Definition content_required_body (html : value) : list (string * value) :=
  [("error", VStr "HTML content is required");
   ("received", VStr (typeof html))].

Definition invalid_type_message : string :=
  "Invalid image type. Use " +:+ dq +:+ "png" +:+ dq +:+ " or "
    +:+ dq +:+ "jpeg" +:+ dq.

Definition invalid_type_body : list (string * value) :=
  [("error", VStr invalid_type_message)].

Definition timeout_body : list (string * value) :=
  [("error", VStr "Request timeout. HTML content took too long to load.")].

Definition internal_error_body (e : error) : list (string * value) :=
  [("error", VStr "Internal server error during conversion");
   ("message", VStr (message e))].

Definition content_options : contentOptions :=
  ContentOptions ["networkidle0"; "domcontentloaded"] 30000.

(** The template literal [`${v}`] *)
Definition template (v : value) : M string :=
  match to_string v with
  | Some s => mret s
  | None => throw to_primitive_error
  end.

(** Lines 124 to 164: the body of the inner [try]. *)
Definition render (page : page) (html : value) (config : gmap string value) : M unit :=
  w ← lift (parseInt (get config "width"));
  h ← lift (parseInt (get config "height"));
  call (SetViewport (Viewport w h)) (setViewport page (Viewport w h));;
  call (SetContent html content_options) (setContent page html content_options);;
  call (WaitForTimeout 1000) (waitForTimeout page 1000);;
  screenshotOptions ←
    (if is_string "jpeg" (get config "type")
     then q ← lift (parseInt (get config "quality"));
          mret (ScreenshotOptions (get config "type") (get config "fullPage") (Some q))
     else mret (ScreenshotOptions (get config "type") (get config "fullPage") None));
  screenshot ← call (Screenshot screenshotOptions) (screenshot page screenshotOptions);
  let mimeType :=
    if is_string "png" (get config "type") then "image/png" else "image/jpeg" in
  suffix ← template (get config "type");
  let filename := "converted." +:+ suffix in
  res_set [("Content-Type", VStr mimeType);
           ("Content-Disposition",
            VStr ("attachment; filename=" +:+ dq +:+ filename +:+ dq));
           ("Content-Length", VNum (NInt (Z.of_nat (length screenshot))))];;
  res_send screenshot.

(** Line 93, [const { html, options = {} } = req.body]: the default applies
    when the property is absent or [undefined], not when it is [null]. *)
Definition body_html (body : gmap string value) : value := get body "html".

Definition body_options (body : gmap string value) : value :=
  match get body "options" with
  | VUndefined => VObj ∅
  | given => given
  end.

(** Lines 95 to 169: the body of the outer [try] after line 93.  [req.body]
    is an object: [express.json()] leaves one there for every request. *)
Definition attempt (browser : option browser_handle) (body : gmap string value) : M unit :=
  let html := body_html body in
  let options := body_options body in
  if negb (to_boolean html) then
    res_status 400;; res_json (content_required_body html)
  else
    let config := config options in
    if negb (includes ["png"; "jpeg"] (get config "type")) then
      res_status 400;; res_json invalid_type_body
    else
      page ← browser_newPage browser;
      try_finally (render page html config) (call PageClose (close page)).

(** Lines 171 to 185: the [catch] block. *)
Definition recover (error : error) : M unit :=
  console_error "Conversion error:" error;;
  if bool_decide (name error = "TimeoutError") then
    res_status 408;; res_json timeout_body
  else
    res_status 500;; res_json (internal_error_body error).

(** The handler of [POST /convert]. *)
Definition convert (browser : option browser_handle) (body : gmap string value) : M unit :=
  try_catch (attempt browser body) recover.

(** Running the handler on a fresh response object. *)
Definition run (browser : option browser_handle) (body : gmap string value)
  : outcome unit * state :=
  convert browser body initial.

(** *** Process lifecycle *)

(** [initBrowser]: the variable is assigned only when the launch succeeds; a
    failed launch is logged and leaves it [undefined]. *)
Definition initBrowser (launch : outcome browser_handle)
    (browser : option browser_handle) : option browser_handle :=
  match launch with
  | Ok handle => Some handle
  | Throw _ => browser
  end.

(** The SIGINT and SIGTERM handlers close the browser when the variable is
    set; the variable keeps referring to the closed handle. *)
Definition browser_close (handle : browser_handle) : browser_handle :=
  Browser false (newPage handle).

Definition shutdown (browser : option browser_handle) : option browser_handle :=
  browser_close <$> browser.

End Server.

Import Server.

(** ** Observations on a run *)

Definition is_new_page (ev : event) : bool :=
  match ev with NewPage => true | _ => false end.

Definition is_page_close (ev : event) : bool :=
  match ev with PageClose => true | _ => false end.

Definition is_respond (ev : event) : bool :=
  match ev with Respond _ => true | _ => false end.

Definition is_engine_call (ev : event) : bool :=
  match ev with
  | NewPage | SetViewport _ | SetContent _ _ | WaitForTimeout _
  | Screenshot _ | PageClose => true
  | ConsoleError _ _ | Respond _ => false
  end.

Definition count (P : event → bool) (l : list event) : nat :=
  length (List.filter P l).

Definition engine_calls (l : list event) : list event :=
  List.filter is_engine_call l.

(** The log and the response of a run of the handler. *)
Definition log_of (browser : option browser_handle) (body : gmap string value)
  : list event := log (run browser body).2.

Definition response_of (browser : option browser_handle) (body : gmap string value)
  : option response := sent (run browser body).2.

(** The engine handle is unavailable: the variable is unset (the launch has
    failed or has not completed) or the handle has been closed. *)
Definition unavailable (browser : option browser_handle) : Prop :=
  match browser with
  | None => True
  | Some handle => connected handle = false
  end.

(** The surface of a run: the page that [browser.newPage()] resolved to,
    when validation let the handler get that far. *)
Definition surface (browser : option browser_handle) (body : gmap string value)
  : option page :=
  if to_boolean (body_html body)
     && includes ["png"; "jpeg"] (get (config (body_options body)) "type")
  then match browser with
       | Some handle =>
           match newPage handle with
           | Ok page => Some page
           | Throw _ => None
           end
       | None => None
       end
  else None.

Definition surfaces_created (browser : option browser_handle)
    (body : gmap string value) : nat :=
  match surface browser body with
  | Some _ => 1
  | None => 0
  end.

(** The value the caller supplied for an option, if any. *)
Definition supplied (body : gmap string value) (key : string) : option value :=
  own_properties (body_options body) !! key.

(** Some event satisfying [a] is logged before some event satisfying [b]. *)
Fixpoint precedes (a b : event → bool) (l : list event) : bool :=
  match l with
  | [] => false
  | ev :: rest => a ev && existsb b rest || precedes a b rest
  end.

(** [needle] occurs in [hay]. *)
Fixpoint occurs (needle hay : string) : bool :=
  String.prefix needle hay
  || match hay with
     | String _ rest => occurs needle rest
     | EmptyString => false
     end.

(** Some string field of a JSON body contains [text]. *)
Definition mentions (text : string) (b : payload) : bool :=
  match b with
  | JsonBody fields =>
      existsb (λ field, match field.2 with
                        | VStr s => occurs text s
                        | _ => false
                        end) fields
  | BufferBody _ => false
  end.

(** A character that prints a decimal digit. *)
Definition is_decimal (c : ascii) : Prop := ∃ d, (d < 10)%N ∧ c = pretty_N_char d.

(** ** Sample requests and engines *)

Definition png_bytes : list Byte.byte := [Byte.x89; Byte.x50; Byte.x4e; Byte.x47].

(** A page on which every call succeeds. *)
Definition good_page : page :=
  Page (λ _, Ok tt) (λ _ _, Ok tt) (λ _, Ok tt) (λ _, Ok png_bytes) (Ok tt).

Definition good_browser : browser_handle := Browser true (Ok good_page).

Definition target_closed : error :=
  Error "Error" "Protocol error (Target.createTarget): Target closed.".

(** A browser after the shutdown handler has closed it: the variable still
    holds the handle, and creating a page on it is refused. *)
Definition closed_browser : option browser_handle :=
  Some (Browser false (Throw target_closed)).

Definition timeout_error : error :=
  Error "TimeoutError" "Navigation timeout of 30000 ms exceeded".

(** A page whose content load times out, and one that in addition cannot be
    closed. *)
Definition slow_page : page :=
  Page (λ _, Ok tt) (λ _ _, Throw timeout_error) (λ _, Ok tt)
       (λ _, Ok png_bytes) (Ok tt).

Definition stuck_page : page :=
  Page (λ _, Ok tt) (λ _ _, Throw timeout_error) (λ _, Ok tt)
       (λ _, Ok png_bytes) (Throw target_closed).

Definition hello : value := VStr "<html><body><h1>Hello World</h1></body></html>".

Definition request (html : value) (options : list (string * value))
  : gmap string value :=
  {[ "html" := html; "options" := VObj (list_to_map options) ]}.

(** ** The form endpoint, POST /convert-form *)

Definition form_required_body : list (string * value) :=
  [("error", VStr "HTML content required either as file upload or form field")].

Definition form_error_body (e : error) : list (string * value) :=
  [("error", VStr "Internal server error during form conversion");
   ("message", VStr (message e))].

(** [v !== undefined] *)
Definition is_defined (v : value) : bool :=
  match v with
  | VUndefined => false
  | _ => true
  end.

(** Lines 205 to 210: the options object built from the form fields. *)
Definition form_options (body : gmap string value) : M (gmap string value) :=
  let options : gmap string value := ∅ in
  options ←
    (if to_boolean (get body "width")
     then w ← lift (parseInt (get body "width"));
          mret (<["width" := VNum w]> options)
     else mret options);
  options ←
    (if to_boolean (get body "height")
     then h ← lift (parseInt (get body "height"));
          mret (<["height" := VNum h]> options)
     else mret options);
  let options :=
    if is_defined (get body "fullPage")
    then <["fullPage" := VBool (is_string "true" (get body "fullPage"))]> options
    else options in
  options ←
    (if to_boolean (get body "quality")
     then q ← lift (parseInt (get body "quality"));
          mret (<["quality" := VNum q]> options)
     else mret options);
  let options :=
    if to_boolean (get body "type")
    then <["type" := get body "type"]> options
    else options in
  mret options.

(** Lines 193 to 202: the content, from the uploaded file when there is one
    ([file] is the text of [req.file.buffer]), else from the form field. *)
Definition form_html (file : option string) (body : gmap string value)
  : option value :=
  match file with
  | Some text => Some (VStr text)
  | None =>
      if to_boolean (get body "html") then Some (get body "html") else None
  end.

(** The handler of [POST /convert-form] up to line 213.  Its result is the
    body [{ html, options }] with which line 214 hands the request back to
    the router for /convert, or [None] when the handler has answered
    itself.  What the router then does is Express's and is not part of the
    embedding. *)
Definition convert_form (file : option string) (body : gmap string value)
  : M (option (gmap string value)) :=
  try_catch
    (match form_html file body with
     | None => res_status 400;; res_json form_required_body;; mret None
     | Some html =>
         options ← form_options body;
         mret (Some {[ "html" := html; "options" := VObj options ]})
     end)
    (λ error,
       console_error "Form conversion error:" error;;
       res_status 500;; res_json (form_error_body error);; mret None).

Definition run_form (file : option string) (body : gmap string value)
  : outcome (option (gmap string value)) * state :=
  convert_form file body initial.

(** ** The signal handlers *)

Inductive process_event : Type :=
| ConsoleLog (text : string)
| BrowserClose
| ProcessExit (code : Z).

(** Lines 243 to 257: the handlers of SIGINT and SIGTERM differ in the text
    they log.  [closing] is the answer of [browser.close()]; when it throws,
    the handler ends there and [process.exit] is not reached. *)
Definition on_signal (announcement : string) (browser : option browser_handle)
    (closing : outcome unit) : list process_event :=
  ConsoleLog announcement ::
  match browser with
  | Some _ =>
      BrowserClose ::
      match closing with
      | Ok _ => [ProcessExit 0]
      | Throw _ => []
      end
  | None => [ProcessExit 0]
  end.

Definition on_SIGINT := on_signal "Shutting down gracefully...".

Definition on_SIGTERM := on_signal "SIGTERM received, shutting down...".

(** A form body in which every field is a text. *)
Definition form (fields : list (string * string)) : gmap string value :=
  list_to_map ((λ field, (field.1, VStr field.2)) <$> fields).

(** ** Further observations *)

Definition is_process_exit (ev : process_event) : bool :=
  match ev with ProcessExit _ => true | _ => false end.


(** The place of an engine call in the order of the handler's text. *)
Definition call_rank (ev : event) : nat :=
  match ev with
  | NewPage => 0
  | SetViewport _ => 1
  | SetContent _ _ => 2
  | WaitForTimeout _ => 3
  | Screenshot _ => 4
  | PageClose => 5
  | ConsoleError _ _ | Respond _ => 6
  end.

(** The arguments that do not depend on the options: the content and its
    load options, and the settling delay. *)
Definition fixed_arguments (body : gmap string value) (ev : event) : Prop :=
  match ev with
  | SetContent html o => html = body_html body ∧ o = content_options
  | WaitForTimeout ms => ms = 1000%Z
  | _ => True
  end.

(** The names of the options the handler reads. *)
Definition option_names : list string :=
  ["width"; "height"; "fullPage"; "quality"; "type"].

(** The values [!html] rejects. *)
Definition falsy_values : list value :=
  [VUndefined; VNull; VBool false; VNum (NInt 0); VNum NNaN; VStr ""].

(** A number on which the embedding is exact. *)
Definition exact (n : number) : Prop :=
  match n with
  | NInt z => safe_integer z
  | NNaN => True
  | NInf _ => True
  end.

(** * Properties *)

Arguments body_html : simpl never.
Arguments body_options : simpl never.
Arguments config : simpl never.
Arguments includes : simpl never.
Arguments get : simpl never.
Arguments parseInt : simpl never.
Arguments surface : simpl never.
Arguments surfaces_created : simpl never.

(** ** Symbolic execution of the handler *)

Lemma includes_png_jpeg v :
  includes ["png"; "jpeg"] v = true → v = VStr "png" ∨ v = VStr "jpeg".
Proof.
  unfold includes, is_string. cbn [existsb]. destruct v; try done.
  rewrite orb_false_r.
  intros [H|H]%orb_prop; apply bool_decide_eq_true in H; subst; auto.
Qed.

Lemma includes_png : includes ["png"; "jpeg"] (VStr "png") = true.
Proof. reflexivity. Qed.

Lemma includes_jpeg : includes ["png"; "jpeg"] (VStr "jpeg") = true.
Proof. reflexivity. Qed.

Ltac unfold_handler :=
  unfold log_of, response_of, run, convert, try_catch, attempt, recover,
    browser_newPage, try_finally, render, call, emit, lift, throw, res_set,
    res_send, res_json, res_status, write, console_error, template, mbind,
    M_bind, mret, M_ret, initial.

(** Evaluate a closed boolean test, or fail. *)
Ltac evaluate x :=
  let v := eval vm_compute in x in
  lazymatch v with
  | true => change x with true
  | false => change x with false
  end.

(** Case analysis on the scrutinee of the next test of the handler. *)
Ltac case_on x :=
  lazymatch x with
  | context [match _ with _ => _ end] => fail
  | negb ?y => case_on y
  | includes _ ?v =>
      first
        [ evaluate x
        | let H := fresh "Htype" in
          destruct x eqn:H;
          [ apply includes_png_jpeg in H; destruct H as [H|H]; rewrite ?H in *
          | ] ]
  | bool_decide _ =>
      first [ evaluate x | let H := fresh "Hcase" in destruct x eqn:H ]
  | _ => let H := fresh "Hcase" in destruct x eqn:H
  end.

(** Run the handler by cases: the run is named, its definition is executed
    test by test, and at each leaf the name is replaced by the result. *)
Ltac exec :=
  unfold log_of, response_of;
  match goal with
  | |- context [run ?b ?body] =>
      let R := fresh "R" in
      let HR := fresh "HR" in
      remember (run b body) as R eqn:HR; revert HR
  end;
  unfold_handler;
  repeat (cbn;
          match goal with
          | |- context [match ?x with _ => _ end] => case_on x
          | |- context [if ?x then _ else _] => case_on x
          end);
  intros ->; cbn.

(** Rewrite with the equations the case analysis has recorded. *)
Ltac recall :=
  repeat match goal with
         | H : ?x = _ |- context [?x] => rewrite H
         end.

(** Two recorded answers to the same call are the same answer. *)
Ltac unify_answers :=
  repeat match goal with
         | H1 : ?x = _, H2 : ?x = _ |- _ => rewrite H1 in H2; simplify_eq
         end.

Ltac reflect_tests :=
  repeat match goal with
         | H : bool_decide _ = true |- _ => apply bool_decide_eq_true in H
         | H : bool_decide _ = false |- _ => apply bool_decide_eq_false in H
         end.

(** Leaves of the case analysis that contradict a premise. *)
Ltac absurd_case :=
  intros; simplify_eq; unify_answers; reflect_tests; try done; try congruence.

(** An event that is not in a log given in full. *)
Ltac not_logged H := exfalso; clear -H; cbn in H; intuition discriminate.

(** ** The JavaScript operations on sample values *)

Example parseInt_prefix : parseInt (VStr "  -42px") = Ok (NInt (-42)).
Proof. reflexivity. Qed.

Example parseInt_hex : parseInt (VStr "0x1F") = Ok (NInt 31).
Proof. reflexivity. Qed.

Example parseInt_array :
  parseInt (VArr [VNum (NInt 12); VNull; VStr "a"]) = Ok (NInt 12).
Proof. reflexivity. Qed.

Example parseInt_object : parseInt (VObj ∅) = Ok NNaN.
Proof. reflexivity. Qed.

Example parseInt_shadowed_toString :
  parseInt (VObj {[ "toString" := VNull ]}) = Throw to_primitive_error.
Proof. reflexivity. Qed.

Example parseInt_infinity : parseInt (VNum (NInf true)) = Ok NNaN.
Proof. reflexivity. Qed.

Example spread_string : get (own_properties (VStr "ab")) "1" = VStr "b".
Proof. reflexivity. Qed.

Example spread_null : config VNull = defaultOptions.
Proof. vm_compute. reflexivity. Qed.

Example options_null_not_defaulted :
  body_options {[ "options" := VNull ]} = VNull.
Proof. reflexivity. Qed.

(** ** parseInt on the decimal form of an integer *)




(** The first character of a printed natural number is a decimal digit, and
    so is the second when there is one. *)
Lemma pretty_N_go_head x s :
  (0 < x)%N →
  ∃ c rest, pretty_N_go x s = String c rest ∧ is_decimal c
            ∧ (rest = s ∨ ∃ c' rest', rest = String c' rest' ∧ is_decimal c').
Proof.
  revert s. induction (N.lt_wf_0 x) as [x _ IH]; intros s Hx.
  rewrite pretty_N_go_step by done.
  destruct (decide (x `div` 10 = 0)%N) as [Hq|Hq].
  - rewrite Hq, pretty_N_go_0. eexists _, _. split; [done|]. split; [|by left].
    exists (x `mod` 10)%N. split; [apply N.mod_lt; lia|done].
  - assert (x `div` 10 < x)%N by (apply N.div_lt; lia).
    destruct (IH (x `div` 10)%N) with (s := String (pretty_N_char (x `mod` 10)) s)
      as (c & rest & -> & Hc & Hrest); [done|by apply N.neq_0_lt_0|].
    eexists _, _. split; [done|]. split; [done|]. right.
    destruct Hrest as [->|Hrest]; [|done].
    eexists _, _. split; [done|].
    exists (x `mod` 10)%N. split; [apply N.mod_lt; lia|done].
Qed.


Lemma pretty_N_head (n : N) :
  ∃ c rest, pretty n = String c rest ∧ is_decimal c
            ∧ (rest = "" ∨ ∃ c' rest', rest = String c' rest' ∧ is_decimal c').
Proof.
  unfold pretty, pretty_N. case_decide as Hn.
  - exists "0"%char, "". split; [done|]. split; [|by left]. by exists 0%N.
  - apply pretty_N_go_head. lia.
Qed.





(** ** Validation *)

(** The configuration holds what the caller supplied, and the default for
    what the caller left out. *)
Lemma config_supplied body key v :
  supplied body key = Some v → get (config (body_options body)) key = v.
Proof.
  unfold supplied, get, config. intros H.
  by rewrite (lookup_union_Some_l _ _ _ _ H).
Qed.

Lemma config_default body key :
  supplied body key = None →
  config (body_options body) !! key = defaultOptions !! key.
Proof.
  unfold supplied, config. intros H. by rewrite lookup_union_r.
Qed.

(** C5: a request whose content is absent or empty (or falsy in any other
    way) is answered 400 with a body that names the [typeof] of what was
    received; the run logs that response and nothing else, so no engine call
    is made and no surface is created. *)
Theorem missing_content_rejected browser body :
  to_boolean (body_html body) = false →
  run browser body
  = (Ok tt,
     let r := Response 400 []
                (JsonBody [("error", VStr "HTML content is required");
                           ("received", VStr (typeof (body_html body)))]) in
     State [Respond r] 400 [] (Some r)).
Proof.
  intros Hfalsy. unfold run, convert, try_catch, attempt.
  rewrite Hfalsy. reflexivity.
Qed.

Lemma missing_content_rejected_witness :
  (to_boolean (body_html ∅) = false
   ∧ response_of (Some good_browser) ∅
     = Some (Response 400 []
               (JsonBody [("error", VStr "HTML content is required");
                          ("received", VStr "undefined")]))
   ∧ engine_calls (log_of (Some good_browser) ∅) = [])
  ∧ (to_boolean (body_html (request (VStr "") [])) = false
     ∧ response_of (Some good_browser) (request (VStr "") [])
       = Some (Response 400 []
                 (JsonBody [("error", VStr "HTML content is required");
                            ("received", VStr "string")]))).
Proof.
  split.
  - split; [reflexivity|]. unfold response_of, log_of.
    rewrite (missing_content_rejected (Some good_browser) ∅) by reflexivity.
    split; reflexivity.
  - split; [reflexivity|]. unfold response_of.
    rewrite (missing_content_rejected (Some good_browser) (request (VStr "") []))
      by reflexivity.
    reflexivity.
Defined.

Lemma absent_or_empty_falsy (body : gmap string value) :
  body !! "html" = None ∨ body !! "html" = Some (VStr "") →
  to_boolean (body_html body) = false.
Proof. unfold body_html, get. by intros [-> | ->]. Qed.

(** Whatever fails the type test is answered 400 without touching the
    engine. *)
Lemma invalid_type_run browser body :
  to_boolean (body_html body) = true →
  includes ["png"; "jpeg"] (get (config (body_options body)) "type") = false →
  run browser body
  = (Ok tt,
     let r := Response 400 [] (JsonBody invalid_type_body) in
     State [Respond r] 400 [] (Some r)).
Proof.
  intros Hhtml Htype. unfold run, convert, try_catch, attempt.
  rewrite Hhtml, Htype. reflexivity.
Qed.

Lemma not_png_jpeg ty :
  ty ≠ "png" → ty ≠ "jpeg" → includes ["png"; "jpeg"] (VStr ty) = false.
Proof.
  intros Hpng Hjpeg. unfold includes, is_string. cbn [existsb].
  by rewrite !bool_decide_eq_false_2.
Qed.

(** C3, as the code has it: a request whose [type] is a string other than
    "png" and "jpeg" is answered 400 whatever its other fields are, and no
    engine call is made.  The body is the fixed message that lists the two
    accepted types (or, when the content is missing as well, the
    content-required body); it does not repeat the value received. *)
Theorem invalid_type_rejected browser body ty :
  supplied body "type" = Some (VStr ty) → ty ≠ "png" → ty ≠ "jpeg" →
  ∃ r, response_of browser body = Some r
       ∧ status r = 400%Z
       ∧ engine_calls (log_of browser body) = []
       ∧ Http.body r
         = JsonBody (if to_boolean (body_html body)
                     then [("error", VStr invalid_type_message)]
                     else content_required_body (body_html body)).
Proof.
  intros Hty Hpng Hjpeg. unfold response_of, log_of.
  destruct (to_boolean (body_html body)) eqn:Hhtml.
  - rewrite invalid_type_run; [by eexists|done|].
    rewrite (config_supplied _ _ _ Hty). by apply not_png_jpeg.
  - unfold run, convert, try_catch, attempt. rewrite Hhtml. by eexists.
Qed.

Lemma invalid_type_rejected_witness :
  ∃ r, response_of (Some good_browser) (request hello [("type", VStr "gif")]) = Some r
       ∧ status r = 400%Z
       ∧ engine_calls (log_of (Some good_browser) (request hello [("type", VStr "gif")])) = []
       ∧ Http.body r
         = JsonBody (if to_boolean (body_html (request hello [("type", VStr "gif")]))
                     then [("error", VStr invalid_type_message)]
                     else content_required_body
                            (body_html (request hello [("type", VStr "gif")]))).
Proof.
  apply (invalid_type_rejected (Some good_browser)
           (request hello [("type", VStr "gif")]) "gif"); [reflexivity|done|done].
Defined.

(** C3, as stated, fails: for [type: "gif"] the error body does not name the
    value received. *)
Lemma invalid_type_not_named :
  supplied (request hello [("type", VStr "gif")]) "type" = Some (VStr "gif")
  ∧ response_of (Some good_browser) (request hello [("type", VStr "gif")])
    = Some (Response 400 [] (JsonBody [("error", VStr invalid_type_message)]))
  ∧ mentions "gif" (JsonBody [("error", VStr invalid_type_message)]) = false.
Proof. repeat split; vm_compute; reflexivity. Qed.

(** ** The engine handle *)

(** A failed launch leaves the variable as it was, that is unset. *)
Lemma failed_launch_leaves_unset e : initBrowser (Throw e) None = None.
Proof. reflexivity. Qed.

(** After the shutdown handler has run the handle is unavailable, whether it
    was set or not. *)
Lemma shutdown_unavailable browser : unavailable (shutdown browser).
Proof. by destruct browser. Qed.

(** C1, as the code has it: while the [browser] variable is unset (the launch
    failed or has not completed) no engine call is made for any request, and
    a request that passes the content and type validation is answered 500
    with the internal-error body carrying the message of the TypeError that
    [browser.newPage()] raises.  A handle that the shutdown handler has
    closed is not told apart from a live one: a validated request still
    starts with a [newPage] call on it. *)
Theorem engine_unset_answers_500 body :
  engine_calls (log_of None body) = []
  ∧ (to_boolean (body_html body) = true →
     includes ["png"; "jpeg"] (get (config (body_options body)) "type") = true →
     (run None body
      = (Ok tt,
         let r := Response 500 []
                    (JsonBody [("error", VStr "Internal server error during conversion");
                               ("message", VStr (message undefined_newPage_error))]) in
         State [ConsoleError "Conversion error:" undefined_newPage_error; Respond r]
               500 [] (Some r)))
     ∧ ∀ handle, connected handle = false →
         head (log_of (Some handle) body) = Some NewPage).
Proof.
  split.
  - exec; reflexivity.
  - intros Hhtml Htype. split.
    + unfold run, convert, try_catch, attempt. rewrite Hhtml, Htype. reflexivity.
    + intros handle _. revert Hhtml Htype. exec; absurd_case.
Qed.

Lemma engine_unset_answers_500_witness :
  engine_calls (log_of None (request hello [])) = []
  ∧ response_of None (request hello [])
    = Some (Response 500 []
              (JsonBody [("error", VStr "Internal server error during conversion");
                         ("message",
                          VStr "Cannot read properties of undefined (reading 'newPage')")])).
Proof.
  destruct (engine_unset_answers_500 (request hello [])) as [Hcalls Hrun].
  split; [exact Hcalls|].
  destruct Hrun as [Hrun _]; [reflexivity|reflexivity|].
  unfold response_of. rewrite Hrun. reflexivity.
Defined.

(** C1, as stated, fails for a handle that has been shut down: the request
    is not turned away before surface creation, [newPage] is called on the
    closed handle. *)
Lemma closed_handle_still_asked :
  unavailable closed_browser
  ∧ log_of closed_browser (request hello [])
    = [NewPage;
       ConsoleError "Conversion error:" target_closed;
       Respond (Response 500 []
                  (JsonBody [("error", VStr "Internal server error during conversion");
                             ("message", VStr (message target_closed))]))]
  ∧ count is_new_page (log_of closed_browser (request hello [])) = 1%nat.
Proof. repeat split; vm_compute; reflexivity. Qed.

(** ** The surface *)

(** C6, as the code has it: in every run, whatever its outcome, [newPage] is
    called at most once, [page.close()] is called exactly once when a surface
    was created and never otherwise, no engine call follows the close, and
    exactly one response is written.  When the conversion fails after the
    surface was created, the close comes before the error response; when it
    succeeds, the image is sent first and the surface is closed after it. *)
Theorem surface_closed_once browser body :
  (surfaces_created browser body <= count is_new_page (log_of browser body) <= 1)%nat
  ∧ count is_page_close (log_of browser body) = surfaces_created browser body
  ∧ precedes is_page_close is_engine_call (log_of browser body) = false
  ∧ count is_respond (log_of browser body) = 1%nat
  ∧ (∀ r, response_of browser body = Some r →
          surfaces_created browser body = 1%nat →
          if (status r =? 200)%Z
          then precedes is_respond is_page_close (log_of browser body) = true
               ∧ precedes is_page_close is_respond (log_of browser body) = false
          else precedes is_page_close is_respond (log_of browser body) = true).
Proof.
  exec.
  all: unfold surfaces_created, surface; recall;
    rewrite ?includes_png, ?includes_jpeg; cbn.
  all: repeat split; try done; try lia.
  all: intros r ? ?; simplify_eq; cbn; done.
Qed.

Lemma surface_closed_once_witness :
  surfaces_created (Some good_browser) (request hello []) = 1%nat
  ∧ count is_page_close (log_of (Some good_browser) (request hello [])) = 1%nat
  ∧ surfaces_created (Some (Browser true (Ok slow_page))) (request hello []) = 1%nat
  ∧ precedes is_page_close is_respond
      (log_of (Some (Browser true (Ok slow_page))) (request hello [])) = true.
Proof.
  destruct (surface_closed_once (Some good_browser) (request hello []))
    as (_ & Hclose & _).
  destruct (surface_closed_once (Some (Browser true (Ok slow_page))) (request hello []))
    as (_ & _ & _ & _ & Horder).
  split; [reflexivity|]. split; [rewrite Hclose; reflexivity|].
  split; [reflexivity|].
  exact (Horder (Response 408 [] (JsonBody timeout_body)) eq_refl eq_refl).
Defined.

(** C6, as stated, fails on the success path: the surface is created and the
    response carrying the image is written while the page is still open; the
    close follows it. *)
Lemma response_sent_before_close :
  surfaces_created (Some good_browser) (request hello []) = 1%nat
  ∧ log_of (Some good_browser) (request hello [])
    = [NewPage;
       SetViewport (Viewport (NInt 1920) (NInt 1080));
       SetContent hello content_options;
       WaitForTimeout 1000;
       Screenshot (ScreenshotOptions (VStr "png") (VBool true) None);
       Respond (Response 200
                  [("Content-Type", VStr "image/png");
                   ("Content-Disposition",
                    VStr ("attachment; filename=" +:+ dq +:+ "converted.png" +:+ dq));
                   ("Content-Length", VNum (NInt 4))]
                  (BufferBody png_bytes));
       PageClose]
  ∧ precedes is_page_close is_respond
      (log_of (Some good_browser) (request hello [])) = false.
Proof. repeat split; vm_compute; reflexivity. Qed.

(** ** Timeout *)

(** C7, as the code has it: when the content load is reached and times out,
    and closing the page does not itself throw, the response is 408 with the
    timeout body, which differs from every internal-error body; the load was
    given the bound of 30000 ms, and the page is closed, once, before the
    response is written. *)
Theorem timeout_answers_408 handle page body e :
  newPage handle = Ok page →
  In (SetContent (body_html body) content_options) (log_of (Some handle) body) →
  setContent page (body_html body) content_options = Throw e →
  name e = "TimeoutError" →
  close page = Ok tt →
  response_of (Some handle) body
  = Some (Response 408 []
            (JsonBody [("error",
                        VStr "Request timeout. HTML content took too long to load.")]))
  ∧ (∀ e', timeout_body ≠ internal_error_body e')
  ∧ timeout content_options = 30000%Z
  ∧ count is_page_close (log_of (Some handle) body) = 1%nat
  ∧ precedes is_page_close is_respond (log_of (Some handle) body) = true.
Proof.
  assert (∀ e', timeout_body ≠ internal_error_body e') as Hdistinct
    by (intros e'; discriminate).
  exec; intros Hnew Hreached Hload Hname Hclose; absurd_case.
  all: try (not_logged Hreached).
Qed.

Lemma timeout_answers_408_witness :
  response_of (Some (Browser true (Ok slow_page))) (request hello [])
  = Some (Response 408 []
            (JsonBody [("error",
                        VStr "Request timeout. HTML content took too long to load.")]))
  ∧ count is_page_close
      (log_of (Some (Browser true (Ok slow_page))) (request hello [])) = 1%nat.
Proof.
  destruct (timeout_answers_408 (Browser true (Ok slow_page)) slow_page
              (request hello []) timeout_error)
    as (Hresponse & _ & _ & Hclose & _).
  - reflexivity.
  - vm_compute. tauto.
  - reflexivity.
  - reflexivity.
  - reflexivity.
  - split; [exact Hresponse | exact Hclose].
Defined.

(** C7, as stated, fails when closing the page throws after the load has
    timed out: the error of the [finally] block replaces the TimeoutError and
    the response is the generic 500. *)
Lemma timeout_lost_when_close_fails :
  In (SetContent hello content_options)
     (log_of (Some (Browser true (Ok stuck_page))) (request hello []))
  ∧ setContent stuck_page hello content_options = Throw timeout_error
  ∧ name timeout_error = "TimeoutError"
  ∧ response_of (Some (Browser true (Ok stuck_page))) (request hello [])
    = Some (Response 500 []
              (JsonBody [("error", VStr "Internal server error during conversion");
                         ("message", VStr (message target_closed))])).
Proof. split; [vm_compute; tauto|]. repeat split; vm_compute; reflexivity. Qed.

(** ** Capture *)

(** C4: every capture call of a run carries the [type] and [fullPage] of the
    configuration; when the type is "jpeg" its options include [quality],
    the integer coercion of the configured quality, and when the type is
    "png" they have no [quality] property. *)
Theorem quality_only_for_jpeg browser body o :
  In (Screenshot o) (log_of browser body) →
  type o = get (config (body_options body)) "type"
  ∧ fullPage o = get (config (body_options body)) "fullPage"
  ∧ (type o = VStr "jpeg" →
     ∃ q, parseInt (get (config (body_options body)) "quality") = Ok q
          ∧ quality o = Some q)
  ∧ (type o = VStr "png" → quality o = None).
Proof.
  exec; intros Hlogged.
  all: try (not_logged Hlogged).
  all: cbn in Hlogged; intuition (simplify_eq; cbn; eauto; try discriminate).
Qed.

Lemma quality_only_for_jpeg_witness :
  (∃ q, parseInt (get (config (body_options
                          (request hello [("type", VStr "jpeg"); ("quality", VStr "80")])))
                      "quality") = Ok q
        ∧ quality (ScreenshotOptions (VStr "jpeg") (VBool true) (Some (NInt 80))) = Some q)
  ∧ quality (ScreenshotOptions (VStr "png") (VBool true) None) = None.
Proof.
  split.
  - apply (quality_only_for_jpeg (Some good_browser)
             (request hello [("type", VStr "jpeg"); ("quality", VStr "80")])
             (ScreenshotOptions (VStr "jpeg") (VBool true) (Some (NInt 80))));
      [vm_compute; tauto | reflexivity].
  - apply (quality_only_for_jpeg (Some good_browser) (request hello [])
             (ScreenshotOptions (VStr "png") (VBool true) None));
      [vm_compute; tauto | reflexivity].
Defined.

(** ** The success response *)

(** C9: a response with status 200 is written only after a capture that
    succeeded; its body is exactly the bytes the capture returned, its
    Content-Type is image/png for type "png" and image/jpeg for type "jpeg",
    its Content-Disposition names the file converted.<type>, and its
    Content-Length is the number of bytes of the body. *)
Theorem success_response browser body r :
  response_of browser body = Some r →
  status r = 200%Z →
  ∃ handle page o bytes ty mime,
    browser = Some handle
    ∧ newPage handle = Ok page
    ∧ In (Screenshot o) (log_of browser body)
    ∧ screenshot page o = Ok bytes
    ∧ get (config (body_options body)) "type" = VStr ty
    ∧ (ty = "png" ∧ mime = "image/png" ∨ ty = "jpeg" ∧ mime = "image/jpeg")
    ∧ r = Response 200
            [("Content-Type", VStr mime);
             ("Content-Disposition",
              VStr ("attachment; filename=" +:+ dq +:+ "converted." +:+ ty +:+ dq));
             ("Content-Length", VNum (NInt (Z.of_nat (length bytes))))]
            (BufferBody bytes).
Proof.
  exec; intros Hr Hstatus; simplify_eq; try discriminate.
  all: eexists _, _, _, _, _, _.
  all: repeat split; eauto; cbn; tauto.
Qed.

(** When every step succeeds the response has status 200. *)
Lemma conversion_succeeds handle page body w h q bytes :
  to_boolean (body_html body) = true →
  includes ["png"; "jpeg"] (get (config (body_options body)) "type") = true →
  newPage handle = Ok page →
  parseInt (get (config (body_options body)) "width") = Ok w →
  parseInt (get (config (body_options body)) "height") = Ok h →
  setViewport page (Viewport w h) = Ok tt →
  setContent page (body_html body) content_options = Ok tt →
  waitForTimeout page 1000 = Ok tt →
  parseInt (get (config (body_options body)) "quality") = Ok q →
  (∀ o, screenshot page o = Ok bytes) →
  ∃ r, response_of (Some handle) body = Some r
       ∧ status r = 200%Z ∧ Http.body r = BufferBody bytes.
Proof.
  exec; intros Hhtml Htype' Hnew Hw Hh Hviewport Hcontent Hwait Hq Hshot.
  all: absurd_case.
  all: try (rewrite Hshot in *; simplify_eq).
  all: by eexists.
Qed.

Lemma success_response_witness :
  ∃ handle page o bytes ty mime,
    Some good_browser = Some handle
    ∧ newPage handle = Ok page
    ∧ In (Screenshot o) (log_of (Some good_browser) (request hello []))
    ∧ screenshot page o = Ok bytes
    ∧ get (config (body_options (request hello []))) "type" = VStr ty
    ∧ (ty = "png" ∧ mime = "image/png" ∨ ty = "jpeg" ∧ mime = "image/jpeg")
    ∧ Response 200
        [("Content-Type", VStr "image/png");
         ("Content-Disposition",
          VStr ("attachment; filename=" +:+ dq +:+ "converted.png" +:+ dq));
         ("Content-Length", VNum (NInt 4))]
        (BufferBody png_bytes)
      = Response 200
          [("Content-Type", VStr mime);
           ("Content-Disposition",
            VStr ("attachment; filename=" +:+ dq +:+ "converted." +:+ ty +:+ dq));
           ("Content-Length", VNum (NInt (Z.of_nat (length bytes))))]
          (BufferBody bytes).
Proof.
  apply (success_response (Some good_browser) (request hello [])); reflexivity.
Defined.



(** ** Numeric options *)

(** Strings without a leading integer coerce to NaN. *)
Lemma parseInt_not_numeric : parseInt (VStr "abc") = Ok NNaN.
Proof. reflexivity. Qed.

(** The 400 responses are those of the two validation tests. *)
Lemma rejected_iff_invalid browser body r :
  response_of browser body = Some r →
  status r = 400%Z
  ↔ to_boolean (body_html body) = false
    ∨ includes ["png"; "jpeg"] (get (config (body_options body)) "type") = false.
Proof.
  exec; intros Hr; simplify_eq; cbn.
  all: rewrite ?includes_png, ?includes_jpeg.
  all: split; [try discriminate|intros [?|?]; try discriminate]; auto.
Qed.

(** C2, as the code has it: the handler has no check on [width], [height] or
    [quality].  A request with content and a valid type is never answered
    400, also when one of them coerces to NaN; once the surface exists a NaN
    width or height is passed to the viewport call, and for type "jpeg" a NaN
    quality is passed to the capture call when the steps before it
    succeed. *)
Theorem nan_reaches_engine browser body :
  to_boolean (body_html body) = true →
  includes ["png"; "jpeg"] (get (config (body_options body)) "type") = true →
  (∀ r, response_of browser body = Some r → status r ≠ 400%Z)
  ∧ (∀ handle page w h,
       browser = Some handle →
       newPage handle = Ok page →
       parseInt (get (config (body_options body)) "width") = Ok w →
       parseInt (get (config (body_options body)) "height") = Ok h →
       w = NNaN ∨ h = NNaN →
       In (SetViewport (Viewport w h)) (log_of browser body))
  ∧ (∀ handle page w h,
       browser = Some handle →
       newPage handle = Ok page →
       get (config (body_options body)) "type" = VStr "jpeg" →
       parseInt (get (config (body_options body)) "quality") = Ok NNaN →
       parseInt (get (config (body_options body)) "width") = Ok w →
       parseInt (get (config (body_options body)) "height") = Ok h →
       setViewport page (Viewport w h) = Ok tt →
       setContent page (body_html body) content_options = Ok tt →
       waitForTimeout page 1000 = Ok tt →
       In (Screenshot
             (ScreenshotOptions (VStr "jpeg")
                (get (config (body_options body)) "fullPage") (Some NNaN)))
          (log_of browser body)).
Proof.
  exec; intros Hhtml Htype'; absurd_case.
  all: repeat split; intros; absurd_case.
  all: cbn; tauto.
Qed.

Lemma nan_reaches_engine_witness :
  In (SetViewport (Viewport NNaN (NInt 1080)))
     (log_of (Some good_browser) (request hello [("width", VStr "abc")]))
  ∧ In (Screenshot (ScreenshotOptions (VStr "jpeg") (VBool true) (Some NNaN)))
       (log_of (Some good_browser)
          (request hello [("type", VStr "jpeg"); ("quality", VStr "high")])).
Proof.
  split.
  - destruct (nan_reaches_engine (Some good_browser)
                (request hello [("width", VStr "abc")]))
      as (_ & Hviewport & _); [reflexivity..|].
    apply (Hviewport good_browser good_page NNaN (NInt 1080));
      [reflexivity..|].
    left; reflexivity.
  - destruct (nan_reaches_engine (Some good_browser)
                (request hello [("type", VStr "jpeg"); ("quality", VStr "high")]))
      as (_ & _ & Hcapture); [reflexivity..|].
    apply (Hcapture good_browser good_page (NInt 1920) (NInt 1080)); reflexivity.
Defined.

(** C2, as stated, fails: a request whose width coerces to NaN is not
    rejected; the NaN is the width of the viewport call and the response is
    the image with status 200. *)
Lemma nan_width_not_rejected :
  parseInt (get (config (body_options (request hello [("width", VStr "abc")])))
              "width") = Ok NNaN
  ∧ In (SetViewport (Viewport NNaN (NInt 1080)))
       (log_of (Some good_browser) (request hello [("width", VStr "abc")]))
  ∧ (status <$> response_of (Some good_browser)
                  (request hello [("width", VStr "abc")])) = Some 200%Z.
Proof. split; [reflexivity|]. split; [vm_compute; tauto|reflexivity]. Qed.

(** ** Defaults *)

Lemma run_depends_on_config browser body body' :
  body_html body' = body_html body →
  config (body_options body') = config (body_options body) →
  run browser body' = run browser body.
Proof.
  intros Hhtml Hconfig. unfold run, convert, attempt.
  by rewrite Hhtml, Hconfig.
Qed.

(** C8: the configuration merges the defaults with the caller's options.  An
    option the caller left out has its default (width 1920, height 1080,
    quality 100, fullPage true, type "png"), an option the caller supplied
    has the supplied value, with no [options] at all the configuration is the
    defaults, and the run, hence every engine call of it, is determined by
    the content and this one configuration. *)
Theorem defaults_merged body :
  (supplied body "width" = None →
   get (config (body_options body)) "width" = VNum (NInt 1920))
  ∧ (supplied body "height" = None →
     get (config (body_options body)) "height" = VNum (NInt 1080))
  ∧ (supplied body "quality" = None →
     get (config (body_options body)) "quality" = VNum (NInt 100))
  ∧ (supplied body "fullPage" = None →
     get (config (body_options body)) "fullPage" = VBool true)
  ∧ (supplied body "type" = None →
     get (config (body_options body)) "type" = VStr "png")
  ∧ (∀ key v, supplied body key = Some v →
              get (config (body_options body)) key = v)
  ∧ (body !! "options" = None → config (body_options body) = defaultOptions)
  ∧ (∀ browser body',
       body_html body' = body_html body →
       config (body_options body') = config (body_options body) →
       run browser body' = run browser body).
Proof.
  repeat split.
  1-5: intros H; unfold get; by rewrite (config_default _ _ H).
  - apply config_supplied.
  - intros H. unfold body_options, get. rewrite H. cbn.
    unfold config. cbn. apply (left_id_L ∅ (∪)).
  - intros browser body'. apply run_depends_on_config.
Qed.

Lemma defaults_merged_witness :
  get (config (body_options (request hello [("width", VNum (NInt 800))]))) "height"
  = VNum (NInt 1080)
  ∧ get (config (body_options (request hello [("width", VNum (NInt 800))]))) "width"
    = VNum (NInt 800)
  ∧ config (body_options {[ "html" := hello ]}) = defaultOptions.
Proof.
  destruct (defaults_merged (request hello [("width", VNum (NInt 800))]))
    as (_ & Hheight & _ & _ & _ & Hsupplied & _).
  destruct (defaults_merged {[ "html" := hello ]}) as (_ & _ & _ & _ & _ & _ & Hnone & _).
  split; [apply Hheight; reflexivity|].
  split; [apply Hsupplied; reflexivity|].
  apply Hnone; reflexivity.
Defined.

(** * Further properties *)

(** ** Responses and errors of the handler *)

(** X1: every run writes a response, with status 200, 400, 408 or 500.  A
    408 carries the timeout body and answers a logged error named
    TimeoutError, whichever call threw it; a 500 carries the message of the
    logged error, whose name is not TimeoutError. *)
Theorem error_mapping browser body :
  ∃ r, response_of browser body = Some r
       ∧ (status r = 200 ∨ status r = 400 ∨ status r = 408 ∨ status r = 500)%Z
       ∧ (status r = 408%Z →
          Http.body r = JsonBody timeout_body
          ∧ ∃ e, In (ConsoleError "Conversion error:" e) (log_of browser body)
                 ∧ name e = "TimeoutError")
       ∧ (status r = 500%Z →
          ∃ e, In (ConsoleError "Conversion error:" e) (log_of browser body)
               ∧ name e ≠ "TimeoutError"
               ∧ Http.body r
                 = JsonBody [("error", VStr "Internal server error during conversion");
                             ("message", VStr (message e))]).
Proof.
  exec; eexists; (split; [reflexivity|]); cbn; reflect_tests.
  all: split; [tauto|].
  all: split; intros Hstatus; try discriminate Hstatus.
  all: try (split; [reflexivity|]).
  all: eexists; repeat split; eauto; cbn; tauto.
Qed.

(** X2: the handler itself ends with an error in one situation only: the
    image has been sent with status 200 and closing the page throws; the
    [catch] block then tries to answer again and [res.json] raises the
    headers-sent error, which nothing catches. *)
Theorem rejection_only_after_success browser body :
  ((run browser body).1 = Ok tt ∨ (run browser body).1 = Throw headers_sent_error)
  ∧ ((run browser body).1 = Throw headers_sent_error
     ↔ (status <$> response_of browser body) = Some 200%Z
       ∧ ∃ page e, surface browser body = Some page ∧ close page = Throw e).
Proof.
  exec.
  all: unfold surface; recall; rewrite ?includes_png, ?includes_jpeg; cbn.
  all: split; [auto; by destruct_all unit|].
  all: split; [intros ?; simplify_eq; eauto|].
  all: intros [Hstatus (page & e' & Hsurface & Hclose)]; simplify_eq.
  all: try discriminate; unify_answers; eauto.
Qed.

(** X3: the engine calls of a run are made in the order of the handler's
    text, each at most once and none skipped (newPage, setViewport,
    setContent, waitForTimeout, screenshot), followed by the close exactly
    when a surface was created; the content is loaded as received with the
    30000 ms bound, and the settling delay is 1000 ms. *)
Theorem engine_call_order browser body :
  map call_rank (engine_calls (log_of browser body))
  = seq 0 (length (engine_calls (log_of browser body))
           - surfaces_created browser body)
    ++ repeat 5 (surfaces_created browser body)
  ∧ Forall (fixed_arguments body) (log_of browser body).
Proof.
  exec.
  all: unfold surfaces_created, surface; recall;
    rewrite ?includes_png, ?includes_jpeg; cbn.
  all: split; [reflexivity|].
  all: repeat constructor.
Qed.

(** ** Options *)

Lemma to_boolean_false v : to_boolean v = false ↔ In v falsy_values.
Proof.
  unfold falsy_values. cbn [In]. split.
  - destruct v as [| |[]|[z| |]|s| |]; cbn; try discriminate; auto 10.
    + intros Hz%negb_false_iff%Z.eqb_eq. subst z. auto 10.
    + intros Hs%negb_false_iff%bool_decide_eq_true. subst s. auto 10.
  - intros H. repeat destruct H as [<-|H]; try reflexivity. destruct H.
Qed.

(** X4: the content-required 400 is the response exactly when the [html]
    field is one of [undefined], [null], [false], [0], [NaN] and the empty
    string; any other value, a string or not, passes the content check. *)
Theorem content_required_iff_falsy browser body :
  response_of browser body
  = Some (Response 400 []
            (JsonBody [("error", VStr "HTML content is required");
                       ("received", VStr (typeof (body_html body)))]))
  ↔ In (body_html body) falsy_values.
Proof.
  rewrite <- to_boolean_false. split.
  - exec; intros Hr; simplify_eq; done.
  - intros Hfalsy. unfold response_of, run, convert, try_catch, attempt.
    rewrite Hfalsy. reflexivity.
Qed.

(** The run reads the options only through the type, [fullPage] and the
    integer coercions of width, height and quality. *)
Lemma run_agrees browser body body' :
  body_html body' = body_html body →
  get (config (body_options body')) "type" = get (config (body_options body)) "type" →
  get (config (body_options body')) "fullPage"
  = get (config (body_options body)) "fullPage" →
  parseInt (get (config (body_options body')) "width")
  = parseInt (get (config (body_options body)) "width") →
  parseInt (get (config (body_options body')) "height")
  = parseInt (get (config (body_options body)) "height") →
  parseInt (get (config (body_options body')) "quality")
  = parseInt (get (config (body_options body)) "quality") →
  run browser body' = run browser body.
Proof.
  intros Hhtml Htype Hfull Hw Hh Hq.
  unfold run, convert, attempt, render. cbv zeta.
  by rewrite Hhtml, Htype, Hfull, Hw, Hh, Hq.
Qed.

Lemma pretty_not_name (i : nat) key : In key option_names → pretty i ≠ key.
Proof.
  intros Hkey Heq. unfold pretty, pretty_nat in Heq.
  destruct (pretty_N_head (N.of_nat i)) as (c & rest & Hpretty & Hc & _).
  rewrite Hpretty in Heq. destruct Hc as (d & Hd & ->).
  assert (d = 0 ∨ d = 1 ∨ d = 2 ∨ d = 3 ∨ d = 4 ∨ d = 5 ∨ d = 6 ∨ d = 7
          ∨ d = 8 ∨ d = 9)%N as Hcases by lia.
  unfold option_names in Hkey. cbn [In] in Hkey.
  repeat destruct Hkey as [<-|Hkey]; try done;
    repeat destruct Hcases as [->|Hcases]; try subst d; discriminate Heq.
Qed.

Lemma indexed_no_name l key : In key option_names → indexed l !! key = None.
Proof.
  intros Hkey. unfold indexed. apply not_elem_of_list_to_map_1.
  rewrite list_elem_of_fmap. intros ([k v] & -> & Hin).
  apply elem_of_lookup_imap in Hin as (i & x & Heq & _).
  simplify_eq. by eapply pretty_not_name.
Qed.

Lemma own_properties_no_name options key :
  (∀ props, options ≠ VObj props) → In key option_names →
  own_properties options !! key = None.
Proof.
  intros Hobj Hkey. destruct options; cbn [own_properties];
    try apply lookup_empty; try by apply indexed_no_name.
  by destruct (Hobj props).
Qed.

(** X5: when [options] is not an object ([null], a boolean, a number, a
    string or an array) the five options read as their defaults and the run
    is the run of the same request without [options]. *)
Theorem options_not_object_ignored browser body :
  (∀ props, body_options body ≠ VObj props) →
  (∀ key, In key option_names →
          get (config (body_options body)) key = get defaultOptions key)
  ∧ run browser body = run browser (delete "options" body).
Proof.
  intros Hobj.
  assert (∀ key, In key option_names →
                 get (config (body_options body)) key = get defaultOptions key)
    as Hdefault.
  { intros key Hkey. unfold get, config.
    by rewrite lookup_union_r by by apply own_properties_no_name. }
  assert (∀ key, get (config (body_options (delete "options" body))) key
                 = get defaultOptions key) as Hnone.
  { intros key. unfold body_options, get. rewrite lookup_delete_eq. cbn.
    unfold config. cbn. by rewrite (left_id_L ∅ (∪)). }
  split; [done|].
  symmetry. apply run_agrees.
  - unfold body_html, get. by rewrite lookup_delete_ne.
  - rewrite Hnone, Hdefault; [done|cbn; tauto].
  - rewrite Hnone, Hdefault; [done|cbn; tauto].
  - rewrite Hnone, Hdefault; [done|cbn; tauto].
  - rewrite Hnone, Hdefault; [done|cbn; tauto].
  - rewrite Hnone, Hdefault; [done|cbn; tauto].
Qed.


(** ** Validation and coercion *)

(** X7: the invalid-type 400 is the response exactly when the content is
    truthy and the configured type is not the string "png" nor the string
    "jpeg"; the type is compared as it is, without coercion. *)
Theorem type_rejected_iff browser body :
  response_of browser body
  = Some (Response 400 [] (JsonBody [("error", VStr invalid_type_message)]))
  ↔ to_boolean (body_html body) = true
    ∧ get (config (body_options body)) "type" ≠ VStr "png"
    ∧ get (config (body_options body)) "type" ≠ VStr "jpeg".
Proof.
  split.
  - exec; intros Hr; simplify_eq.
    split; [done|]. split; intros Heq; rewrite Heq in Htype; discriminate Htype.
  - intros (Hhtml & Hpng & Hjpeg).
    unfold response_of, run, convert, try_catch, attempt. rewrite Hhtml.
    destruct (includes _ _) eqn:Htype; [|reflexivity].
    by apply includes_png_jpeg in Htype as [?|?].
Qed.

(** X8: a run that answers 400 has done nothing else: its log holds that
    response alone (no engine call, no logged error) and the handler ends
    normally. *)
Theorem validation_short_circuits browser body r :
  response_of browser body = Some r →
  status r = 400%Z →
  run browser body = (Ok tt, State [Respond r] 400 [] (Some r)).
Proof. exec; intros Hr Hstatus; simplify_eq; try discriminate; reflexivity. Qed.

(** X9: for type "png" the quality is not read at all: two requests with
    the same content, [fullPage] and width and height coercions run alike
    whatever their [quality] fields hold. *)
Theorem png_ignores_quality browser body body' :
  body_html body' = body_html body →
  get (config (body_options body)) "type" = VStr "png" →
  get (config (body_options body')) "type" = VStr "png" →
  get (config (body_options body')) "fullPage"
  = get (config (body_options body)) "fullPage" →
  parseInt (get (config (body_options body')) "width")
  = parseInt (get (config (body_options body)) "width") →
  parseInt (get (config (body_options body')) "height")
  = parseInt (get (config (body_options body)) "height") →
  run browser body' = run browser body.
Proof.
  intros Hhtml Htype Htype' Hfull Hw Hh.
  unfold run, convert, attempt, render. cbv zeta.
  by rewrite Hhtml, Htype, Htype', Hfull, Hw, Hh.
Qed.

(** X10: two requests with the same content, type and [fullPage] whose
    width, height and quality coerce alike under [parseInt] have the same
    run: same engine calls, same response. *)
Theorem coercions_decide_run browser body body' :
  body_html body' = body_html body →
  get (config (body_options body')) "type" = get (config (body_options body)) "type" →
  get (config (body_options body')) "fullPage"
  = get (config (body_options body)) "fullPage" →
  parseInt (get (config (body_options body')) "width")
  = parseInt (get (config (body_options body)) "width") →
  parseInt (get (config (body_options body')) "height")
  = parseInt (get (config (body_options body)) "height") →
  parseInt (get (config (body_options body')) "quality")
  = parseInt (get (config (body_options body)) "quality") →
  run browser body' = run browser body.
Proof. apply run_agrees. Qed.

(** ** The form endpoint *)

Ltac exec_form :=
  match goal with
  | |- context [run_form ?f ?body] =>
      let R := fresh "R" in
      let HR := fresh "HR" in
      remember (run_form f body) as R eqn:HR; revert HR
  end;
  unfold run_form, convert_form, form_options;
  unfold_handler;
  repeat (cbn -[insert empty singletonM];
          match goal with
          | |- context [match ?x with _ => _ end] => case_on x
          | |- context [if ?x then _ else _] => case_on x
          end);
  intros ->; cbn -[insert empty singletonM].

Lemma built_html html (options : gmap string value) :
  body_html {[ "html" := html; "options" := VObj options ]} = html.
Proof. unfold body_html, get. by rewrite lookup_insert_eq. Qed.

Lemma built_options html (options : gmap string value) :
  body_options {[ "html" := html; "options" := VObj options ]} = VObj options.
Proof.
  unfold body_options, get.
  by rewrite lookup_insert_ne, lookup_singleton_eq.
Qed.

Ltac lookup_built :=
  unfold supplied; rewrite ?built_options, ?built_html; cbn [own_properties];
  repeat first [ rewrite lookup_insert_eq
               | rewrite lookup_insert_ne by discriminate
               | rewrite lookup_empty ].

Lemma parseInt_throws v e : parseInt v = Throw e → e = to_primitive_error.
Proof. unfold parseInt. destruct (to_string v); congruence. Qed.



(** X11: the form handler never throws and does one of two things.  Either
    it hands a body on, having written no response and logged nothing, and
    the content of that body is the file text or the [html] field; or it
    answers once itself: 400 when there is neither file nor truthy [html]
    field, 500 with the TypeError message when a numeric field cannot be
    converted to a string. *)
Theorem form_answers_or_hands_on file body :
  ∃ result s,
    run_form file body = (Ok result, s)
    ∧ match result with
      | Some built =>
          log s = [] ∧ sent s = None
          ∧ form_html file body = Some (body_html built)
      | None =>
          count is_respond (log s) = 1%nat
          ∧ (form_html file body = None
             ∧ sent s = Some (Response 400 [] (JsonBody form_required_body))
             ∨ form_html file body ≠ None
               ∧ sent s = Some (Response 500 []
                                  (JsonBody (form_error_body to_primitive_error))))
      end.
Proof.
  exec_form; eexists _, _; (split; [reflexivity|]); cbn -[insert empty singletonM].
  all: rewrite ?built_html; try done.
  all: repeat match goal with
              | H : parseInt _ = Throw _ |- _ => apply parseInt_throws in H; subst
              end.
  all: split; [reflexivity|]; auto.
Qed.

(** X12: when a file is uploaded its text is the content, whatever the
    [html] field holds, and the handler never answers 400; an empty file is
    handed on as empty content, which the content check of /convert
    refuses. *)
Theorem uploaded_file_wins text body r s :
  run_form (Some text) body = (r, s) →
  (∀ built, r = Ok (Some built) →
            body_html built = VStr text
            ∧ (text = "" → to_boolean (body_html built) = false))
  ∧ (∀ resp, sent s = Some resp → status resp = 500%Z).
Proof.
  exec_form; intros Hrun; simplify_eq; cbn in *; simplify_eq.
  all: split; intros; simplify_eq; rewrite ?built_html; try done.
  all: split; [done|by intros ->].
Qed.

(** X13: the options built from a form hold nothing but the five known
    names: width, height and quality as numbers (the integer coercion of a
    truthy field), [fullPage] as the boolean "the field is exactly the text
    true", and the type as received.  No other form field reaches them. *)
Theorem form_options_sound file body built s key v :
  run_form file body = (Ok (Some built), s) →
  supplied built key = Some v →
  In key ["width"; "height"; "quality"]
  ∧ to_boolean (get body key) = true
  ∧ (∃ n, v = VNum n ∧ parseInt (get body key) = Ok n)
  ∨ key = "fullPage"
    ∧ get body "fullPage" ≠ VUndefined
    ∧ v = VBool (is_string "true" (get body "fullPage"))
  ∨ key = "type"
    ∧ to_boolean (get body "type") = true
    ∧ v = get body "type".
Proof.
  exec_form; intros Hrun; simplify_eq.
  all: unfold supplied; rewrite built_options; cbn [own_properties]; intros Hlook.
  all: repeat (apply lookup_insert_Some in Hlook as [[<- <-]|[_ Hlook]];
               [first [ left; repeat split; eauto; cbn; tauto
                      | right; left; repeat split; eauto;
                        by destruct (get body "fullPage")
                      | right; right; by repeat split ] |]).
  all: by rewrite lookup_empty in Hlook.
Qed.

(** X14: in the body handed on, a width, height or quality field that is
    absent or empty leaves the default in the configuration; an absent
    [fullPage] leaves [true], and a [fullPage] text gives [true] only when it
    is exactly "true"; an absent or empty type leaves "png". *)
Theorem form_defaults file body built s :
  run_form file body = (Ok (Some built), s) →
  (∀ key, In key ["width"; "height"; "quality"] →
          to_boolean (get body key) = false →
          get (config (body_options built)) key = get defaultOptions key)
  ∧ (get body "fullPage" = VUndefined →
     get (config (body_options built)) "fullPage" = VBool true)
  ∧ (∀ text, get body "fullPage" = VStr text →
             get (config (body_options built)) "fullPage"
             = VBool (bool_decide (text = "true")))
  ∧ (to_boolean (get body "type") = false →
     get (config (body_options built)) "type" = VStr "png").
Proof.
  exec_form; intros Hrun; simplify_eq.
  all: split; [|split; [|split]].
  all: lazymatch goal with
       | |- ∀ key, _ ∨ _ → _ =>
           intros key Hkey Hfalsy;
           repeat destruct Hkey as [<-|Hkey]; try done; try congruence
       | |- _ = VUndefined → _ =>
           intros Habsent; try (rewrite Habsent in *; discriminate)
       | |- _ = false → _ => intros Hfalsy; try congruence
       | |- ∀ text, _ =>
           intros text Htext; rewrite ?Htext in *; try discriminate
       end.
  all: first [ erewrite config_supplied; [reflexivity|by lookup_built]
             | unfold get; rewrite config_default by (by lookup_built); reflexivity ].
Qed.


(** ** Shutdown *)


(** ** The further properties on sample inputs *)

Lemma validation_short_circuits_witness :
  run None (request hello [("type", VStr "PNG")])
  = (Ok tt,
     State [Respond (Response 400 [] (JsonBody invalid_type_body))] 400 []
           (Some (Response 400 [] (JsonBody invalid_type_body)))).
Proof.
  apply (validation_short_circuits None (request hello [("type", VStr "PNG")]));
    reflexivity.
Defined.

Lemma options_not_object_ignored_witness :
  get (config (body_options {[ "html" := hello; "options" := VStr "jpeg" ]})) "type"
  = VStr "png"
  ∧ run (Some good_browser) {[ "html" := hello; "options" := VStr "jpeg" ]}
    = run (Some good_browser)
        (delete "options" {[ "html" := hello; "options" := VStr "jpeg" ]}).
Proof.
  destruct (options_not_object_ignored (Some good_browser)
              {[ "html" := hello; "options" := VStr "jpeg" ]}) as [Hdefault Hrun].
  - intros props. vm_compute. discriminate.
  - split; [|exact Hrun]. rewrite (Hdefault "type"); [reflexivity|].
    vm_compute. tauto.
Defined.


Lemma coercions_decide_run_witness :
  run (Some good_browser) (request hello [("width", VStr "800px")])
  = run (Some good_browser) (request hello [("width", VNum (NInt 800))]).
Proof.
  apply (coercions_decide_run (Some good_browser)
           (request hello [("width", VNum (NInt 800))])
           (request hello [("width", VStr "800px")])); vm_compute; reflexivity.
Defined.

Lemma png_ignores_quality_witness :
  run (Some good_browser)
    (request hello [("quality", VObj {[ "toString" := VNull ]})])
  = run (Some good_browser) (request hello []).
Proof.
  apply (png_ignores_quality (Some good_browser) (request hello [])
           (request hello [("quality", VObj {[ "toString" := VNull ]})]));
    reflexivity.
Defined.

Lemma uploaded_file_wins_witness :
  body_html {[ "html" := VStr ""; "options" := VObj ∅ ]} = VStr ""
  ∧ to_boolean (body_html {[ "html" := VStr ""; "options" := VObj ∅ ]}) = false.
Proof.
  destruct (uploaded_file_wins "" (form [("html", "<p>field</p>")])
              (Ok (Some {[ "html" := VStr ""; "options" := VObj ∅ ]})) initial)
    as [Hbuilt _]; [reflexivity|].
  destruct (Hbuilt {[ "html" := VStr ""; "options" := VObj ∅ ]}) as [Hhtml Hempty];
    [reflexivity|].
  split; [exact Hhtml | apply Hempty; reflexivity].
Defined.

Lemma form_options_sound_witness :
  In "fullPage" ["width"; "height"; "quality"]
  ∧ to_boolean (get (form [("html", "<p>x</p>"); ("fullPage", "yes"); ("note", "1")])
                    "fullPage") = true
  ∧ (∃ n, VBool false = VNum n
          ∧ parseInt (get (form [("html", "<p>x</p>"); ("fullPage", "yes"); ("note", "1")])
                          "fullPage") = Ok n)
  ∨ "fullPage" = "fullPage"
    ∧ get (form [("html", "<p>x</p>"); ("fullPage", "yes"); ("note", "1")]) "fullPage"
      ≠ VUndefined
    ∧ VBool false
      = VBool (is_string "true"
                 (get (form [("html", "<p>x</p>"); ("fullPage", "yes"); ("note", "1")])
                      "fullPage"))
  ∨ "fullPage" = "type"
    ∧ to_boolean (get (form [("html", "<p>x</p>"); ("fullPage", "yes"); ("note", "1")])
                      "type") = true
    ∧ VBool false
      = get (form [("html", "<p>x</p>"); ("fullPage", "yes"); ("note", "1")]) "type".
Proof.
  apply (form_options_sound None
           (form [("html", "<p>x</p>"); ("fullPage", "yes"); ("note", "1")])
           {[ "html" := VStr "<p>x</p>";
              "options" := VObj {[ "fullPage" := VBool false ]} ]}
           initial "fullPage" (VBool false)); reflexivity.
Defined.

Lemma form_defaults_witness :
  get (config (body_options {[ "html" := VStr "<p>x</p>";
                               "options" := VObj {[ "height" := VNum (NInt 0) ]} ]}))
      "width" = VNum (NInt 1920)
  ∧ get (config (body_options {[ "html" := VStr "<p>x</p>";
                                 "options" := VObj {[ "height" := VNum (NInt 0) ]} ]}))
        "fullPage" = VBool true.
Proof.
  destruct (form_defaults None
              (form [("html", "<p>x</p>"); ("width", ""); ("height", "0")])
              {[ "html" := VStr "<p>x</p>";
                 "options" := VObj {[ "height" := VNum (NInt 0) ]} ]} initial)
    as (Hnumeric & Hfull & _); [reflexivity|].
  split.
  - rewrite (Hnumeric "width"); [reflexivity|vm_compute; tauto|reflexivity].
  - apply Hfull. reflexivity.
Defined.

